(** * mint_token.py: the ALETHEA balance and token-info reporter

    A shallow embedding of [src/mint_token.py] and the properties of its
    external contract: which requests it sends, what it prints, and where
    an exception leaves it.

    Text is modelled by Rocq strings holding the UTF-8 bytes of the Python
    [str], the form in which it arrives in [sys.argv], travels in an HTTP
    body and leaves on standard output.  String literals below are the
    literals of the script, byte for byte.  Standard output encodes UTF-8
    and hands the bytes of [sys.argv] through as they came (the
    surrogateescape handler); it cannot encode a [str] that holds any other
    unpaired surrogate, which therefore has no bytes here, and [print] of
    such a [str] raises [UnicodeEncodeError]. *)

From Stdlib Require Import String Ascii ZArith NArith List Bool Lia DecimalString.
Import ListNotations.
Open Scope string_scope.

(** ** Text helpers *)

Module Text.

(** The characters the script writes with an escape in its literals. *)
Definition dq : string := String (ascii_of_nat 34) EmptyString.
Definition bs : string := String (ascii_of_nat 92) EmptyString.
Definition nl : string := String (ascii_of_nat 10) EmptyString.

(** [s * n] on a Python string. *)
Fixpoint str_mul (s : string) (n : nat) : string :=
  match n with
  | O => EmptyString
  | S n' => s ++ str_mul s n'
  end.

(** [sep.join(parts)]. *)
Definition join (sep : string) (parts : list string) : string :=
  String.concat sep parts.

(** [str(n)] for a Python [int]. *)
Definition str_of_int (z : Z) : string := NilZero.string_of_int (Z.to_int z).

(** [needle in hay], as a proposition and as a test. *)
Definition contains (hay needle : string) : Prop :=
  exists before after, hay = before ++ needle ++ after.

Fixpoint containsb (hay needle : string) : bool :=
  String.prefix needle hay ||
  match hay with
  | EmptyString => false
  | String _ rest => containsb rest needle
  end.


End Text.
Import Text.

(** ** JSON text as the HTTP client writes it

    [requests.post(url, json=d)] sends [json.dumps(d)] encoded as UTF-8.
    With the defaults of [json.dumps] (ensure_ascii, separators [", "] and
    [": "]) a string is written between double quotes by
    [encode_basestring_ascii]: the quote and the backslash get a backslash,
    the control characters their short or [\u00XX] form, every character
    outside [' '..'~'] a [\uXXXX] escape (two of them, a surrogate pair,
    above U+FFFF), and every other character stands for itself. *)

Module JsonText.

Definition hex_digit (d : N) : ascii :=
  if (d <? 10)%N then ascii_of_N (48 + d) else ascii_of_N (87 + d).

(** ['{0:04x}'.format(n)] for [n < 0x10000]. *)
Definition hex4 (n : N) : string :=
  String (hex_digit (N.shiftr n 12 mod 16))
    (String (hex_digit (N.shiftr n 8 mod 16))
       (String (hex_digit (N.shiftr n 4 mod 16))
          (String (hex_digit (n mod 16)) EmptyString))).

Definition u_escape (n : N) : string := bs ++ "u" ++ hex4 n.

(** The replacement of one character that has no entry in ESCAPE_DCT. *)
Definition escape_codepoint (n : N) : string :=
  if (n <? 0x10000)%N then u_escape n
  else
    let m := (n - 0x10000)%N in
    u_escape (N.lor 0xd800 (N.land (N.shiftr m 10) 0x3ff))
    ++ u_escape (N.lor 0xdc00 (N.land m 0x3ff)).

(** The characters [' '..'~'] other than the quote and the backslash:
    the ones ESCAPE_ASCII does not match. *)
Definition plain_char (c : N) : bool :=
  (32 <=? c)%N && (c <=? 126)%N && negb (c =? 34)%N && negb (c =? 92)%N.

(** One character below U+0080. *)
Definition escape_ascii_char (c : N) : string :=
  if plain_char c then String (ascii_of_N c) EmptyString
  else if (c =? 34)%N then bs ++ dq
  else if (c =? 92)%N then bs ++ bs
  else if (c =? 8)%N then bs ++ "b"
  else if (c =? 12)%N then bs ++ "f"
  else if (c =? 10)%N then bs ++ "n"
  else if (c =? 13)%N then bs ++ "r"
  else if (c =? 9)%N then bs ++ "t"
  else u_escape c.

Definition continuation (b : N) : bool := (0x80 <=? b)%N && (b <=? 0xBF)%N.

Definition utf8_2 (b1 b2 : N) : option N :=
  if (0xC2 <=? b1)%N && (b1 <=? 0xDF)%N && continuation b2
  then Some (N.lor (N.shiftl (N.land b1 0x1F) 6) (N.land b2 0x3F))
  else None.

Definition utf8_3 (b1 b2 b3 : N) : option N :=
  let cp := N.lor (N.shiftl (N.land b1 0x0F) 12)
              (N.lor (N.shiftl (N.land b2 0x3F) 6) (N.land b3 0x3F)) in
  if (0xE0 <=? b1)%N && (b1 <=? 0xEF)%N && continuation b2 && continuation b3
     && (0x800 <=? cp)%N && negb ((0xD800 <=? cp)%N && (cp <=? 0xDFFF)%N)
  then Some cp else None.

Definition utf8_4 (b1 b2 b3 b4 : N) : option N :=
  let cp := N.lor (N.shiftl (N.land b1 0x07) 18)
              (N.lor (N.shiftl (N.land b2 0x3F) 12)
                 (N.lor (N.shiftl (N.land b3 0x3F) 6) (N.land b4 0x3F))) in
  if (0xF0 <=? b1)%N && (b1 <=? 0xF4)%N
     && continuation b2 && continuation b3 && continuation b4
     && (0x10000 <=? cp)%N && (cp <=? 0x10FFFF)%N
  then Some cp else None.

(** The replacements of all characters of a string.  A character above
    U+007F is read from its UTF-8 bytes; a byte that starts no character
    is the lone surrogate U+DC00+b under which Python holds it. *)
Fixpoint escape_chars (s : string) : string :=
  match s with
  | EmptyString => EmptyString
  | String a1 r1 =>
      let b1 := N_of_ascii a1 in
      if (b1 <? 0x80)%N then escape_ascii_char b1 ++ escape_chars r1
      else
        let lone := escape_codepoint (0xDC00 + b1) ++ escape_chars r1 in
        match r1 with
        | EmptyString => lone
        | String a2 r2 =>
            let b2 := N_of_ascii a2 in
            match utf8_2 b1 b2 with
            | Some cp => escape_codepoint cp ++ escape_chars r2
            | None =>
                match r2 with
                | EmptyString => lone
                | String a3 r3 =>
                    let b3 := N_of_ascii a3 in
                    match utf8_3 b1 b2 b3 with
                    | Some cp => escape_codepoint cp ++ escape_chars r3
                    | None =>
                        match r3 with
                        | EmptyString => lone
                        | String a4 r4 =>
                            match utf8_4 b1 b2 b3 (N_of_ascii a4) with
                            | Some cp => escape_codepoint cp ++ escape_chars r4
                            | None => lone
                            end
                        end
                    end
                end
            end
        end
  end.

Definition encode_basestring_ascii (s : string) : string :=
  dq ++ escape_chars s ++ dq.

(** [json.dumps(d)] for a dict of strings. *)
Definition dumps_str_dict (d : list (string * string)) : string :=
  "{" ++ join ", "
           (map (fun kv => encode_basestring_ascii (fst kv) ++ ": "
                           ++ encode_basestring_ascii (snd kv)) d)
      ++ "}".

(** A string of continuation bytes. *)
Fixpoint continuation_bytes (s : string) : bool :=
  match s with
  | EmptyString => true
  | String a r => continuation (N_of_ascii a) && continuation_bytes r
  end.

(** A string all of whose characters stand for themselves. *)
Fixpoint plain (s : string) : bool :=
  match s with
  | EmptyString => true
  | String a r => plain_char (N_of_ascii a) && plain r
  end.

End JsonText.

(** ** What the script relies on from the JSON library

    [response.json()], the conversion of its result by an f-string and
    [json.dumps(result, indent=2)] are calls into the runtime.  The script
    is modelled over any implementation of them; [PyJson] below supplies
    the one of CPython. *)

Class JsonLib : Type := {
  (** the objects [response.json()] returns *)
  pyobj : Type;
  (** [json.loads]; [None] when it raises *)
  loads : string -> option pyobj;
  (** [str(result)], what [f"{result}"] inserts, as standard output writes
      it; [None] when standard output cannot encode it *)
  str_of : pyobj -> option string;
  (** [json.dumps(result, indent=2)] *)
  dumps_indent2 : pyobj -> string
}.

(** ** The world of the script: standard output and the network *)

(** An outbound POST: the URL and the bytes of its body. *)
Record request : Type := { req_url : string; req_body : string }.

(** The transport faults [requests.post] raises instead of returning. *)
Inductive transport_fault : Type :=
| ConnectionError
| Timeout
| OtherFault (name : string).

Inductive exn : Type :=
| RequestException (f : transport_fault)
| JSONDecodeError (doc : string)
| UnicodeEncodeError.

(** A [requests.Response], as far as the script reads it.  Its text is
    held by its bytes: it is the text [requests] decodes from the content,
    which standard output can encode. *)
Record Response : Type := { status_code : Z; text : string }.

(** What one POST comes to: a response of the server, or a fault. *)
Inductive reply : Type :=
| Answers (r : Response)
| Faults (f : transport_fault).

(** The endpoint decides the reply from the requests it has already
    received (oldest first) and the one arriving. *)
Definition endpoint : Type := list request -> request -> reply.

Record world : Type := {
  stdout : string;         (* everything printed so far *)
  sent : list request      (* the requests issued so far, oldest first *)
}.

Inductive outcome (A : Type) : Type :=
| Returned (a : A)
| Raised (e : exn).
Arguments Returned {A} a.
Arguments Raised {A} e.

(** Statements of the script: they read the endpoint, change the world and
    either return or raise. *)
Definition M (A : Type) : Type := endpoint -> world -> outcome A * world.

Definition ret {A} (a : A) : M A := fun _ w => (Returned a, w).

Definition raise {A} (e : exn) : M A := fun _ w => (Raised e, w).

Definition bind {A B} (m : M A) (k : A -> M B) : M B :=
  fun ep w =>
    match m ep w with
    | (Returned a, w') => k a ep w'
    | (Raised e, w') => (Raised e, w')
    end.

Declare Scope py_scope.
Delimit Scope py_scope with py.
Notation "x <- m ;; k" := (bind m (fun x => k))
  (at level 61, m at next level, right associativity) : py_scope.
Notation "m ;; k" := (bind m (fun _ => k))
  (at level 61, right associativity) : py_scope.

(** [print(s)] of a text that has bytes: the text and a newline. *)
Definition print (s : string) : M unit :=
  fun _ w => (Returned tt, {| stdout := stdout w ++ s ++ nl; sent := sent w |}).

(** [print(s)] of any text: one that standard output cannot encode is not
    written, and [print] raises. *)
Definition print_str (s : option string) : M unit :=
  match s with
  | Some bytes => print bytes
  | None => raise UnicodeEncodeError
  end.

(** [requests.post(url, json=d)]: the request leaves, then the reply of the
    endpoint is a response or a raised fault. *)
Definition requests_post (url : string) (json : list (string * string)) : M Response :=
  fun ep w =>
    let rq := {| req_url := url; req_body := JsonText.dumps_str_dict json |} in
    let w' := {| stdout := stdout w; sent := sent w ++ [rq] |} in
    match ep (sent w) rq with
    | Answers r => (Returned r, w')
    | Faults f => (Raised (RequestException f), w')
    end.

(** [response.json()]. *)
Definition response_json `{JsonLib} (response : Response) : M pyobj :=
  match loads (text response) with
  | Some result => ret result
  | None => raise (JSONDecodeError (text response))
  end.

(** ** The script *)

Definition LINERA_SERVICE : string := "http://localhost:8082".
Definition CHAIN_ID : string :=
  "3482d6e583c1ea93461a9df51dda460cb1d855fb30d8c9c5719145b07692147b".
Definition APP_ID : string :=
  "fee1da3380b869246b647b9deedaed0403043c4474b1b347cf2f8297da674126".
Definition FAUCET_OWNER : string :=
  "a14d36f87a4d786817dfbbc64f5740e8fc8b6186d0f131ea62a442127e7364ae".

Definition url : string :=
  LINERA_SERVICE ++ "/chains/" ++ CHAIN_ID ++ "/applications/" ++ APP_ID.

Definition balance_query (to_address : string) : list (string * string) :=
  [("query", "{ balance(owner: " ++ dq ++ to_address ++ dq ++ ") }")].

Definition info_query : list (string * string) :=
  [("query", "{ tokenInfo { name symbol decimals totalSupply } }")].

(** The six lines that close every completed run. *)
Definition advisory : M unit :=
  (print (nl ++ "⚠️  Note: Direct minting via GraphQL is not supported.") ;;
   print "The ALETHEA contract requires operation execution through Linera blocks." ;;
   print (nl ++ "To mint tokens, you need to:") ;;
   print "1. Use the Linera CLI to create a block with Mint operation" ;;
   print "2. Or use the dashboard UI which handles operation execution" ;;
   print "3. Or implement a proper RPC client that can sign and submit blocks")%py.

Section Script.
Context `{JsonLib}.
Open Scope py_scope.

Definition mint_tokens (to_address amount : string) : M unit :=
  print ("🔍 Checking current balance for " ++ to_address ++ "...") ;;
  response <- requests_post url (balance_query to_address) ;;
  (if (status_code response =? 200)%Z then
     result <- response_json response ;;
     print_str (option_map (String.append "✅ Current balance: ") (str_of result))
   else
     print ("⚠️  Could not check balance: " ++ str_of_int (status_code response)) ;;
     print ("Response: " ++ text response)) ;;
  print (nl ++ "🪙 Checking token info...") ;;
  response <- requests_post url info_query ;;
  (if (status_code response =? 200)%Z then
     result <- response_json response ;;
     print ("✅ Token info: " ++ dumps_indent2 result)
   else
     print ("⚠️  Could not get token info: " ++ str_of_int (status_code response))) ;;
  advisory.

Definition default_address : string :=
  "f1008485b277add6c3b54207014df45fd8fb48e8146689ba554128a32a6f1ce8".
Definition default_amount : string := "1000.".

(** The [__main__] block; [argv] is [sys.argv]. *)
Definition main (argv : list string) : M unit :=
  let to_address :=
    if (1 <? length argv)%nat then nth 1 argv EmptyString else default_address in
  let amount :=
    if (2 <? length argv)%nat then nth 2 argv EmptyString else default_amount in
  print "🚀 ALETHEA Token Mint Script" ;;
  print (str_mul "=" 50) ;;
  print ("To Address: " ++ to_address) ;;
  print ("Amount: " ++ amount) ;;
  print ("Chain ID: " ++ CHAIN_ID) ;;
  print ("App ID: " ++ APP_ID) ;;
  print (str_mul "=" 50) ;;
  print EmptyString ;;
  mint_tokens to_address amount.

(** A run from the start of the process: nothing printed, nothing sent. *)
Definition boot : world := {| stdout := EmptyString; sent := [] |}.

Definition run {A} (m : M A) (ep : endpoint) : outcome A * world := m ep boot.

End Script.

(** ** The JSON library of CPython, for running the script on given replies

    [json.loads] as [requests] calls it (strict strings; [NaN], [Infinity]
    and [-Infinity] accepted), the [repr] of what it returns, and
    [json.dumps(_, indent=2)].  A [\u] escape of a surrogate that has no
    partner is kept as the three bytes of its generalized UTF-8 form, and
    written back as that escape.  Two renderings are outside the model: a
    float is printed as the literal it was read from (Python prints the
    shortest decimal that reads back to the same float), and [repr] copies
    every other character above U+007F (Python escapes the unprintable
    ones).  The limits of the interpreter (depth of nesting, digits of an
    integer) are not modelled either. *)

Module PyJson.

#[warnings="-register-all"]
Inductive pyval : Type :=
| PyNone
| PyBool (b : bool)
| PyInt (z : Z)
| PyFloat (lit : string)
| PyStr (s : string)
| PyList (items : list pyval)
| PyDict (members : list (string * pyval)).

(** *** Scanning *)

Inductive token : Type :=
| TLBrace | TRBrace | TLBracket | TRBracket | TComma | TColon
| TScalar (v : pyval).

(** Where the scanner stands in NUMBER_RE: an optional minus, then 0 or
    a digit other than 0 and more digits, then optionally a point and
    digits, then optionally e or E, an optional sign and digits. *)
Inductive num_state : Type :=
| NMinus | NZero | NInt | NDot | NFrac | NE | NESign | NExp.

(** Where it stands in a string: between characters, after a backslash,
    or inside the four digits of a [\u] escape. *)
Inductive str_state : Type :=
| SPlain
| SEscape
| SHex (owed : nat) (acc : N).

Inductive lex_state : Type :=
| LIdle
| LWord (owed : string) (v : pyval)
| LNumber (st : num_state) (lit : string)
| LString (st : str_state) (high : option N) (out_rev : list ascii).

Definition is_digit (c : N) : bool := (48 <=? c)%N && (c <=? 57)%N.

Definition hex_value (c : N) : option N :=
  if is_digit c then Some (c - 48)%N
  else if (97 <=? c)%N && (c <=? 102)%N then Some (c - 87)%N
  else if (65 <=? c)%N && (c <=? 70)%N then Some (c - 55)%N
  else None.

(** [int(lit)] for a literal of NUMBER_RE without fraction or exponent. *)
Fixpoint digits_value (acc : Z) (s : string) : Z :=
  match s with
  | EmptyString => acc
  | String c r => digits_value (10 * acc + Z.of_N (N_of_ascii c - 48)) r
  end.

Definition int_of_literal (lit : string) : Z :=
  match lit with
  | String c r =>
      if (N_of_ascii c =? 45)%N then (- digits_value 0 r)%Z
      else digits_value 0 lit
  | EmptyString => 0%Z
  end.

Definition number_token (st : num_state) (lit : string) : option token :=
  match st with
  | NZero | NInt => Some (TScalar (PyInt (int_of_literal lit)))
  | NFrac | NExp => Some (TScalar (PyFloat lit))
  | NMinus | NDot | NE | NESign => None
  end.

(** The UTF-8 bytes of a character, last byte first. *)
Definition utf8_rev (cp : N) : list ascii :=
  let tail k := ascii_of_N (N.lor 0x80 (N.land (N.shiftr cp k) 0x3F)) in
  if (cp <? 0x80)%N then [ascii_of_N cp]
  else if (cp <? 0x800)%N then
    [tail 0%N; ascii_of_N (N.lor 0xC0 (N.shiftr cp 6))]
  else if (cp <? 0x10000)%N then
    [tail 0%N; tail 6%N; ascii_of_N (N.lor 0xE0 (N.shiftr cp 12))]
  else
    [tail 0%N; tail 6%N; tail 12%N; ascii_of_N (N.lor 0xF0 (N.shiftr cp 18))].

Definition push_char (cp : N) (out_rev : list ascii) : list ascii :=
  utf8_rev cp ++ out_rev.

(** A high surrogate waits for the [\u] escape that may complete it; any
    other continuation leaves it alone in the string. *)
Definition flush (high : option N) (out_rev : list ascii) : list ascii :=
  match high with
  | Some h => push_char h out_rev
  | None => out_rev
  end.

Definition is_high (u : N) : bool := (0xD800 <=? u)%N && (u <=? 0xDBFF)%N.
Definition is_low (u : N) : bool := (0xDC00 <=? u)%N && (u <=? 0xDFFF)%N.

(** A complete [\uXXXX] escape of value [u]. *)
Definition after_u_escape (high : option N) (u : N) (out_rev : list ascii)
  : lex_state :=
  match high with
  | Some h =>
      if is_low u then
        LString SPlain None
          (push_char (0x10000 + N.lor (N.shiftl (h - 0xD800) 10) (u - 0xDC00))
             out_rev)
      else if is_high u then LString SPlain (Some u) (push_char h out_rev)
      else LString SPlain None (push_char u (push_char h out_rev))
  | None =>
      if is_high u then LString SPlain (Some u) out_rev
      else LString SPlain None (push_char u out_rev)
  end.

Definition simple_escape (c : N) : option N :=
  if (c =? 34)%N || (c =? 92)%N || (c =? 47)%N then Some c
  else if (c =? 98)%N then Some 8%N
  else if (c =? 102)%N then Some 12%N
  else if (c =? 110)%N then Some 10%N
  else if (c =? 114)%N then Some 13%N
  else if (c =? 116)%N then Some 9%N
  else None.

Definition lex_string (st : str_state) (high : option N)
           (out_rev : list ascii) (a : ascii) : option (lex_state * list token) :=
  let c := N_of_ascii a in
  match st with
  | SPlain =>
      if (c =? 34)%N then
        Some (LIdle,
              [TScalar (PyStr (string_of_list_ascii (rev (flush high out_rev))))])
      else if (c =? 92)%N then Some (LString SEscape high out_rev, [])
      else if (c <? 32)%N then None
      else Some (LString SPlain None (a :: flush high out_rev), [])
  | SEscape =>
      if (c =? 117)%N then Some (LString (SHex 4 0) high out_rev, [])
      else
        match simple_escape c with
        | Some e => Some (LString SPlain None (push_char e (flush high out_rev)), [])
        | None => None
        end
  | SHex owed acc =>
      match hex_value c with
      | None => None
      | Some d =>
          let acc' := (16 * acc + d)%N in
          match owed with
          | S (S owed') => Some (LString (SHex (S owed') acc') high out_rev, [])
          | _ => Some (after_u_escape high acc' out_rev, [])
          end
      end
  end.

Definition is_space (c : N) : bool :=
  (c =? 32)%N || (c =? 9)%N || (c =? 10)%N || (c =? 13)%N.

Definition lex_idle (a : ascii) : option (lex_state * list token) :=
  let c := N_of_ascii a in
  if is_space c then Some (LIdle, [])
  else if (c =? 123)%N then Some (LIdle, [TLBrace])
  else if (c =? 125)%N then Some (LIdle, [TRBrace])
  else if (c =? 91)%N then Some (LIdle, [TLBracket])
  else if (c =? 93)%N then Some (LIdle, [TRBracket])
  else if (c =? 44)%N then Some (LIdle, [TComma])
  else if (c =? 58)%N then Some (LIdle, [TColon])
  else if (c =? 34)%N then Some (LString SPlain None [], [])
  else if (c =? 45)%N then Some (LNumber NMinus (String a EmptyString), [])
  else if (c =? 48)%N then Some (LNumber NZero (String a EmptyString), [])
  else if is_digit c then Some (LNumber NInt (String a EmptyString), [])
  else if (c =? 110)%N then Some (LWord "ull" PyNone, [])
  else if (c =? 116)%N then Some (LWord "rue" (PyBool true), [])
  else if (c =? 102)%N then Some (LWord "alse" (PyBool false), [])
  else if (c =? 78)%N then Some (LWord "aN" (PyFloat "NaN"), [])
  else if (c =? 73)%N then Some (LWord "nfinity" (PyFloat "Infinity"), [])
  else None.

(** The next state inside a number, when the character belongs to it. *)
Definition num_next (st : num_state) (c : N) : option num_state :=
  let exp_mark := (c =? 101)%N || (c =? 69)%N in
  match st with
  | NMinus => if (c =? 48)%N then Some NZero
              else if is_digit c then Some NInt else None
  | NZero => if (c =? 46)%N then Some NDot
             else if exp_mark then Some NE else None
  | NInt => if is_digit c then Some NInt
            else if (c =? 46)%N then Some NDot
            else if exp_mark then Some NE else None
  | NDot => if is_digit c then Some NFrac else None
  | NFrac => if is_digit c then Some NFrac
             else if exp_mark then Some NE else None
  | NE => if is_digit c then Some NExp
          else if (c =? 43)%N || (c =? 45)%N then Some NESign else None
  | NESign | NExp => if is_digit c then Some NExp else None
  end.

Definition lex_step (st : lex_state) (a : ascii) : option (lex_state * list token) :=
  match st with
  | LIdle => lex_idle a
  | LWord owed v =>
      match owed with
      | String e rest =>
          if Ascii.eqb a e then
            match rest with
            | EmptyString => Some (LIdle, [TScalar v])
            | _ => Some (LWord rest v, [])
            end
          else None
      | EmptyString => None
      end
  | LNumber ns lit =>
      match num_next ns (N_of_ascii a) with
      | Some ns' => Some (LNumber ns' (lit ++ String a EmptyString), [])
      | None =>
          match ns, (N_of_ascii a =? 73)%N with
          | NMinus, true => Some (LWord "nfinity" (PyFloat "-Infinity"), [])
          | _, _ =>
              match number_token ns lit, lex_idle a with
              | Some t, Some (st', ts) => Some (st', t :: ts)
              | _, _ => None
              end
          end
      end
  | LString ss high out_rev => lex_string ss high out_rev a
  end.

Definition lex_finish (st : lex_state) : option (list token) :=
  match st with
  | LIdle => Some []
  | LNumber ns lit => option_map (fun t => [t]) (number_token ns lit)
  | LWord _ _ | LString _ _ _ => None
  end.

Fixpoint lex (st : lex_state) (s : string) : option (list token) :=
  match s with
  | EmptyString => lex_finish st
  | String a r =>
      match lex_step st a with
      | Some (st', ts) => option_map (app ts) (lex st' r)
      | None => None
      end
  end.

(** *** Parsing *)

(** [d[k] = v] on a dict that keeps insertion order: a key met again
    keeps its place and takes the new value. *)
Fixpoint dict_set (k : string) (v : pyval) (d : list (string * pyval))
  : list (string * pyval) :=
  match d with
  | [] => [(k, v)]
  | (k', v') :: r =>
      if String.eqb k k' then (k, v) :: r else (k', v') :: dict_set k v r
  end.

(** The containers that are open around the position of the parser. *)
Inductive frame : Type :=
| InList (items_rev : list pyval)
| DictOpen (members : list (string * pyval))
| DictKey (members : list (string * pyval)) (key : string).

Inductive expect : Type :=
| EValue            (* a value *)
| EValueOrClose     (* a value or ], after [ *)
| EKeyOrClose       (* a key or }, after { *)
| EKey              (* a key, after a comma *)
| EColon
| ECommaOrClose
| EEnd (v : pyval). (* the document is complete *)

Definition close_value (v : pyval) (stack : list frame)
  : option (expect * list frame) :=
  match stack with
  | [] => Some (EEnd v, [])
  | InList items :: rest => Some (ECommaOrClose, InList (v :: items) :: rest)
  | DictKey members key :: rest =>
      Some (ECommaOrClose, DictOpen (dict_set key v members) :: rest)
  | DictOpen _ :: _ => None
  end.

Definition open_value (t : token) (stack : list frame)
  : option (expect * list frame) :=
  match t with
  | TScalar v => close_value v stack
  | TLBracket => Some (EValueOrClose, InList [] :: stack)
  | TLBrace => Some (EKeyOrClose, DictOpen [] :: stack)
  | _ => None
  end.

Definition take_key (t : token) (stack : list frame)
  : option (expect * list frame) :=
  match t, stack with
  | TScalar (PyStr k), DictOpen members :: rest =>
      Some (EColon, DictKey members k :: rest)
  | _, _ => None
  end.

Definition close_container (t : token) (stack : list frame)
  : option (expect * list frame) :=
  match t, stack with
  | TRBracket, InList items :: rest => close_value (PyList (rev items)) rest
  | TRBrace, DictOpen members :: rest => close_value (PyDict members) rest
  | _, _ => None
  end.

Definition parse_step (e : expect) (stack : list frame) (t : token)
  : option (expect * list frame) :=
  match e with
  | EValue => open_value t stack
  | EValueOrClose =>
      match t with
      | TRBracket => close_container t stack
      | _ => open_value t stack
      end
  | EKeyOrClose =>
      match t with
      | TRBrace => close_container t stack
      | _ => take_key t stack
      end
  | EKey => take_key t stack
  | EColon =>
      match t with
      | TColon => Some (EValue, stack)
      | _ => None
      end
  | ECommaOrClose =>
      match t, stack with
      | TComma, InList _ :: _ => Some (EValue, stack)
      | TComma, DictOpen _ :: _ => Some (EKey, stack)
      | TComma, _ => None
      | _, _ => close_container t stack
      end
  | EEnd _ => None
  end.

Fixpoint parse (e : expect) (stack : list frame) (ts : list token)
  : option pyval :=
  match ts with
  | [] => match e with EEnd v => Some v | _ => None end
  | t :: r =>
      match parse_step e stack t with
      | Some (e', stack') => parse e' stack' r
      | None => None
      end
  end.

Definition json_loads (s : string) : option pyval :=
  match lex LIdle s with
  | Some ts => parse EValue [] ts
  | None => None
  end.


(** *** Rendering *)

Definition hex2 (n : N) : string :=
  String (JsonText.hex_digit (N.shiftr n 4 mod 16))
    (String (JsonText.hex_digit (n mod 16)) EmptyString).

Fixpoint has_char (c : N) (s : string) : bool :=
  match s with
  | EmptyString => false
  | String a r => (N_of_ascii a =? c)%N || has_char c r
  end.

(** [repr] writes a string between single quotes, and between double
    quotes when it holds a single quote and no double quote. *)
Definition repr_quote (s : string) : N :=
  if has_char 39 s && negb (has_char 34 s) then 34%N else 39%N.

Definition repr_char (quote c : N) : string :=
  if (c =? quote)%N || (c =? 92)%N then bs ++ String (ascii_of_N c) EmptyString
  else if (c =? 9)%N then bs ++ "t"
  else if (c =? 10)%N then bs ++ "n"
  else if (c =? 13)%N then bs ++ "r"
  else if (c <? 32)%N || (c =? 127)%N then bs ++ "x" ++ hex2 c
  else String (ascii_of_N c) EmptyString.

(** The unpaired surrogate that three bytes stand for, if they do. *)
Definition surrogate_of (b1 b2 b3 : N) : option N :=
  if (b1 =? 0xED)%N && (0xA0 <=? b2)%N && (b2 <=? 0xBF)%N
     && JsonText.continuation b3
  then Some (N.lor 0xD000 (N.lor (N.shiftl (N.land b2 0x3F) 6) (N.land b3 0x3F)))
  else None.

(** [repr] writes an unpaired surrogate as its [\uXXXX] escape. *)
Fixpoint repr_chars (quote : N) (s : string) : string :=
  match s with
  | EmptyString => EmptyString
  | String a r =>
      let one := repr_char quote (N_of_ascii a) ++ repr_chars quote r in
      match r with
      | String a2 (String a3 r3) =>
          match surrogate_of (N_of_ascii a) (N_of_ascii a2) (N_of_ascii a3) with
          | Some cp => JsonText.u_escape cp ++ repr_chars quote r3
          | None => one
          end
      | _ => one
      end
  end.

Definition repr_str (s : string) : string :=
  let q := String (ascii_of_N (repr_quote s)) EmptyString in
  q ++ repr_chars (repr_quote s) s ++ q.

Definition repr_float (lit : string) : string :=
  if String.eqb lit "NaN" then "nan"
  else if String.eqb lit "Infinity" then "inf"
  else if String.eqb lit "-Infinity" then "-inf"
  else lit.

(** [repr(v)]. *)
Fixpoint py_repr (v : pyval) : string :=
  match v with
  | PyNone => "None"
  | PyBool true => "True"
  | PyBool false => "False"
  | PyInt z => str_of_int z
  | PyFloat lit => repr_float lit
  | PyStr s => repr_str s
  | PyList items => "[" ++ join ", " (map py_repr items) ++ "]"
  | PyDict members =>
      "{" ++ join ", "
               (map (fun kv : string * pyval => let (k, x) := kv in
                               repr_str k ++ ": " ++ py_repr x) members)
          ++ "}"
  end.

(** What standard output writes for a string: its bytes, with the one
    byte of [sys.argv] for each surrogate U+DC80..U+DCFF, and nothing when
    the string holds another unpaired surrogate. *)
Fixpoint stdout_bytes (s : string) : option string :=
  match s with
  | EmptyString => Some EmptyString
  | String a r =>
      let one := option_map (String a) (stdout_bytes r) in
      match r with
      | String a2 (String a3 r3) =>
          match surrogate_of (N_of_ascii a) (N_of_ascii a2) (N_of_ascii a3) with
          | Some cp =>
              if (0xDC80 <=? cp)%N && (cp <=? 0xDCFF)%N
              then option_map (String (ascii_of_N (cp - 0xDC00))) (stdout_bytes r3)
              else None
          | None => one
          end
      | _ => one
      end
  end.

(** [str(v)], what an f-string inserts, as standard output writes it: a
    string as it is, anything else by its [repr], which is ASCII wherever
    the object holds a surrogate. *)
Definition py_str (v : pyval) : option string :=
  match v with
  | PyStr s => stdout_bytes s
  | _ => Some (py_repr v)
  end.

(** [encode_basestring_ascii] on a string that was read: the text between
    its unpaired surrogates as [JsonText.escape_chars] writes it, each
    surrogate as its own [\uXXXX]. *)
Fixpoint escape_read (before_rev : list ascii) (s : string) : string :=
  let flushed := JsonText.escape_chars (string_of_list_ascii (rev before_rev)) in
  match s with
  | EmptyString => flushed
  | String a r =>
      let one := escape_read (a :: before_rev) r in
      match r with
      | String a2 (String a3 r3) =>
          match surrogate_of (N_of_ascii a) (N_of_ascii a2) (N_of_ascii a3) with
          | Some cp => flushed ++ JsonText.u_escape cp ++ escape_read [] r3
          | None => one
          end
      | _ => one
      end
  end.

Definition encode_read (s : string) : string := dq ++ escape_read [] s ++ dq.

(** A line break and the indentation of a nesting level. *)
Definition newline_indent (level : nat) : string := nl ++ str_mul "  " level.

(** [json.dumps(v, indent=2)] at a nesting level. *)
Fixpoint dumps_at (level : nat) (v : pyval) : string :=
  match v with
  | PyNone => "null"
  | PyBool true => "true"
  | PyBool false => "false"
  | PyInt z => str_of_int z
  | PyFloat lit => lit
  | PyStr s => encode_read s
  | PyList [] => "[]"
  | PyList items =>
      "[" ++ newline_indent (S level)
          ++ join ("," ++ newline_indent (S level)) (map (dumps_at (S level)) items)
          ++ newline_indent level ++ "]"
  | PyDict [] => "{}"
  | PyDict members =>
      "{" ++ newline_indent (S level)
          ++ join ("," ++ newline_indent (S level))
               (map (fun kv : string * pyval => let (k, x) := kv in
                               encode_read k ++ ": "
                               ++ dumps_at (S level) x) members)
          ++ newline_indent level ++ "}"
  end.

Definition json_dumps_indent2 (v : pyval) : string := dumps_at 0 v.

End PyJson.

#[export] Instance cpython_json : JsonLib := {
  pyobj := PyJson.pyval;
  loads := PyJson.json_loads;
  str_of := PyJson.py_str;
  dumps_indent2 := PyJson.json_dumps_indent2
}.

(** ** Vocabulary of the properties *)

Definition result {A} (r : outcome A * world) : outcome A := fst r.
Definition output {A} (r : outcome A * world) : string := stdout (snd r).
Definition requests {A} (r : outcome A * world) : list request := sent (snd r).

(** The two requests as [requests_post] builds them. *)
Definition balance_request (to_address : string) : request :=
  {| req_url := url; req_body := JsonText.dumps_str_dict (balance_query to_address) |}.

Definition info_request : request :=
  {| req_url := url; req_body := JsonText.dumps_str_dict info_query |}.

(** What the six prints of [advisory] add to standard output. *)
Definition advisory_text : string :=
  nl ++ "⚠️  Note: Direct minting via GraphQL is not supported." ++ nl
  ++ "The ALETHEA contract requires operation execution through Linera blocks." ++ nl
  ++ nl ++ "To mint tokens, you need to:" ++ nl
  ++ "1. Use the Linera CLI to create a block with Mint operation" ++ nl
  ++ "2. Or use the dashboard UI which handles operation execution" ++ nl
  ++ "3. Or implement a proper RPC client that can sign and submit blocks" ++ nl.

(** What [main] prints before it calls [mint_tokens]. *)
Definition banner (to_address amount : string) : string :=
  "🚀 ALETHEA Token Mint Script" ++ nl
  ++ str_mul "=" 50 ++ nl
  ++ "To Address: " ++ to_address ++ nl
  ++ "Amount: " ++ amount ++ nl
  ++ "Chain ID: " ++ CHAIN_ID ++ nl
  ++ "App ID: " ++ APP_ID ++ nl
  ++ str_mul "=" 50 ++ nl
  ++ nl.



(** Simulated endpoints. *)
Definition answer (status : Z) (body : string) : reply :=
  Answers {| status_code := status; text := body |}.

Definition always (rp : reply) : endpoint := fun _ _ => rp.

Definition in_turn (replies : list reply) (otherwise : reply) : endpoint :=
  fun earlier _ => nth (length earlier) replies otherwise.

(** The request bodies and the response body in the words of the
    specification. *)
Definition spec_balance_body (A : string) : string :=
  "{" ++ dq ++ "query" ++ dq ++ ": " ++ dq
      ++ "{ balance(owner: " ++ bs ++ dq ++ A ++ bs ++ dq ++ ") }" ++ dq ++ "}".

Definition spec_info_body : string :=
  "{" ++ dq ++ "query" ++ dq ++ ": " ++ dq
      ++ "{ tokenInfo { name symbol decimals totalSupply } } " ++ dq ++ "}".

Definition body_42 : string :=
  "{" ++ dq ++ "data" ++ dq ++ ":{" ++ dq ++ "balance" ++ dq ++ ":"
      ++ dq ++ "42." ++ dq ++ "}}".

(** An endpoint nobody listens on, one that fails every request, one that
    answers every request with the balance document of the specification,
    one that answers with prose, and three that treat the two requests
    differently. *)
Definition unreachable : endpoint := always (Faults ConnectionError).
Definition failing_500 : endpoint := always (answer 500 "server error").
Definition body_42_endpoint : endpoint := always (answer 200 body_42).
Definition two_failures : endpoint :=
  in_turn [answer 500 "balance down"; answer 503 "token info down"] (Faults Timeout).

(** The JSON string of the unpaired surrogate U+D800, and an endpoint that
    answers the balance request with it. *)
Definition surrogate_body : string := dq ++ bs ++ "ud800" ++ dq.
Definition surrogate_then_failure : endpoint :=
  in_turn [answer 200 surrogate_body; answer 500 "server error"] (Faults Timeout).


(** Text made of the characters [' '..'~'], and text made of the
    characters below U+0080. *)
Fixpoint printable_ascii (s : string) : bool :=
  match s with
  | EmptyString => true
  | String a r =>
      (32 <=? N_of_ascii a)%N && (N_of_ascii a <=? 126)%N && printable_ascii r
  end.

Fixpoint ascii_only (s : string) : bool :=
  match s with
  | EmptyString => true
  | String a r => (N_of_ascii a <? 0x80)%N && ascii_only r
  end.

(** * Properties *)

(** ** Strings *)

Lemma append_assoc (a b c : string) : (a ++ b) ++ c = a ++ b ++ c.
Proof.
  induction a as [|x a IH]; simpl; [reflexivity | now rewrite IH].
Qed.

Lemma append_nil_r (a : string) : a ++ EmptyString = a.
Proof.
  induction a as [|x a IH]; simpl; [reflexivity | now rewrite IH].
Qed.

Lemma prefix_spec (p s : string) :
  String.prefix p s = true <-> exists t, s = p ++ t.
Proof.
  revert s; induction p as [|x p IH]; intros s.
  - destruct s; simpl; split; intros _; try reflexivity; eexists; reflexivity.
  - destruct s as [|y s]; simpl.
    + split; [discriminate | intros [t Ht]; discriminate].
    + destruct (ascii_dec x y) as [->|Hxy].
      * rewrite IH. split; intros [t Ht]; exists t; [now rewrite Ht | now inversion Ht].
      * split; [discriminate | intros [t Ht]; congruence].
Qed.

(** The test [containsb] decides [contains]. *)
Lemma containsb_spec (hay needle : string) :
  containsb hay needle = true <-> contains hay needle.
Proof.
  unfold contains. induction hay as [|x hay IH].
  - change (containsb EmptyString needle)
      with (String.prefix needle EmptyString || false).
    rewrite orb_false_r, prefix_spec. split.
    + intros [t Ht]. exists EmptyString, t. exact Ht.
    + intros [b [a Hba]]. destruct b; [exists a; exact Hba | discriminate].
  - change (containsb (String x hay) needle)
      with (String.prefix needle (String x hay) || containsb hay needle).
    rewrite orb_true_iff, prefix_spec, IH. split.
    + intros [[t Ht] | [b [a Hba]]].
      * exists EmptyString, t. exact Ht.
      * exists (String x b), a. simpl. now rewrite Hba.
    + intros [b [a Hba]]. destruct b as [|y b].
      * left. exists a. exact Hba.
      * right. exists b, a. simpl in Hba. now inversion Hba.
Qed.

Lemma not_contains (hay needle : string) :
  containsb hay needle = false -> ~ contains hay needle.
Proof.
  intros Hb Hc. apply containsb_spec in Hc. congruence.
Qed.

Lemma contains_intro (before after hay needle : string) :
  hay = before ++ needle ++ after -> contains hay needle.
Proof.
  intros E. exists before, after. exact E.
Qed.

(** ** JSON text of a request *)

Lemma plain_char_ascii (c : N) : JsonText.plain_char c = true -> (c <? 0x80)%N = true.
Proof.
  unfold JsonText.plain_char. rewrite !andb_true_iff, !N.leb_le, N.ltb_lt. lia.
Qed.

(** Plain text is copied as it is. *)
Lemma escape_chars_plain (s rest : string) :
  JsonText.plain s = true ->
  JsonText.escape_chars (s ++ rest) = s ++ JsonText.escape_chars rest.
Proof.
  induction s as [|a s IH]; intros Hp; [reflexivity|].
  cbn [JsonText.plain] in Hp. apply andb_true_iff in Hp as [Ha Hs].
  change (String a s ++ rest) with (String a (s ++ rest)).
  cbn [JsonText.escape_chars].
  rewrite (plain_char_ascii _ Ha). unfold JsonText.escape_ascii_char.
  rewrite Ha, ascii_N_embedding, (IH Hs). reflexivity.
Qed.

(** Every other character is replaced by a longer text. *)

Lemma length_append (a b : string) :
  String.length (a ++ b) = String.length a + String.length b.
Proof.
  induction a as [|x a IH]; simpl; [reflexivity | now rewrite IH].
Qed.

Lemma escape_codepoint_length (n : N) :
  6 <= String.length (JsonText.escape_codepoint n).
Proof.
  unfold JsonText.escape_codepoint. destruct (n <? 0x10000)%N.
  - apply Nat.le_refl.
  - rewrite length_append. cbn. lia.
Qed.

Lemma escape_ascii_char_length (c : N) :
  JsonText.plain_char c = false ->
  2 <= String.length (JsonText.escape_ascii_char c).
Proof.
  intros Hc. unfold JsonText.escape_ascii_char. rewrite Hc.
  repeat match goal with
         | |- context [if ?b then _ else _] => destruct b
         end; cbn; lia.
Qed.

Lemma utf8_2_continuation (b1 b2 cp : N) :
  JsonText.utf8_2 b1 b2 = Some cp -> JsonText.continuation b2 = true.
Proof.
  unfold JsonText.utf8_2.
  destruct (JsonText.continuation b2); [reflexivity|].
  rewrite andb_false_r. discriminate.
Qed.

Lemma utf8_3_continuation (b1 b2 b3 cp : N) :
  JsonText.utf8_3 b1 b2 b3 = Some cp ->
  JsonText.continuation b2 = true /\ JsonText.continuation b3 = true.
Proof.
  unfold JsonText.utf8_3.
  destruct (JsonText.continuation b2), (JsonText.continuation b3);
    rewrite ?andb_false_r, ?andb_true_r; cbn [andb];
    rewrite ?andb_false_r; try discriminate.
  intros _. split; reflexivity.
Qed.

Lemma utf8_4_continuation (b1 b2 b3 b4 cp : N) :
  JsonText.utf8_4 b1 b2 b3 b4 = Some cp ->
  JsonText.continuation b2 = true /\ JsonText.continuation b3 = true
  /\ JsonText.continuation b4 = true.
Proof.
  unfold JsonText.utf8_4.
  destruct (JsonText.continuation b2), (JsonText.continuation b3),
    (JsonText.continuation b4);
    rewrite ?andb_false_r, ?andb_true_r; cbn [andb];
    rewrite ?andb_false_r; try discriminate.
  intros _. repeat split; reflexivity.
Qed.

(** A character above U+007F takes its first byte and up to three
    continuation bytes, and becomes at least six characters. *)
Lemma escape_chars_high (a1 : ascii) (r1 : string) :
  (N_of_ascii a1 <? 0x80)%N = false ->
  exists (cp : N) (taken rest : string),
    r1 = taken ++ rest
    /\ String.length taken <= 3
    /\ JsonText.continuation_bytes taken = true
    /\ JsonText.escape_chars (String a1 r1)
       = JsonText.escape_codepoint cp ++ JsonText.escape_chars rest.
Proof.
  intros Hhigh. cbn [JsonText.escape_chars]. rewrite Hhigh.
  assert (Hlone : exists (cp : N) (taken rest : string),
             r1 = taken ++ rest
             /\ String.length taken <= 3
             /\ JsonText.continuation_bytes taken = true
             /\ JsonText.escape_codepoint (0xDC00 + N_of_ascii a1)
                  ++ JsonText.escape_chars r1
                = JsonText.escape_codepoint cp ++ JsonText.escape_chars rest).
  { exists (0xDC00 + N_of_ascii a1)%N, EmptyString, r1.
    repeat split. cbn. lia. }
  destruct r1 as [|a2 r2]; [exact Hlone|].
  destruct (JsonText.utf8_2 (N_of_ascii a1) (N_of_ascii a2)) as [cp|] eqn:E2.
  { apply utf8_2_continuation in E2.
    exists cp, (String a2 EmptyString), r2.
    repeat split; [cbn; lia | cbn; now rewrite E2]. }
  destruct r2 as [|a3 r3]; [exact Hlone|].
  destruct (JsonText.utf8_3 (N_of_ascii a1) (N_of_ascii a2) (N_of_ascii a3))
    as [cp|] eqn:E3.
  { apply utf8_3_continuation in E3 as [C2 C3].
    exists cp, (String a2 (String a3 EmptyString)), r3.
    repeat split; [cbn; lia | cbn; now rewrite C2, C3]. }
  destruct r3 as [|a4 r4]; [exact Hlone|].
  destruct (JsonText.utf8_4 (N_of_ascii a1) (N_of_ascii a2) (N_of_ascii a3)
              (N_of_ascii a4)) as [cp|] eqn:E4; [|exact Hlone].
  apply utf8_4_continuation in E4 as [C2 [C3 C4]].
  exists cp, (String a2 (String a3 (String a4 EmptyString))), r4.
  repeat split; [cbn; lia | cbn; now rewrite C2, C3, C4].
Qed.

(** Continuation bytes taken from a text that goes on with an ASCII
    character come before that character. *)
Lemma taken_before_ascii (taken s rest t : string) (c : ascii) :
  (N_of_ascii c <? 0x80)%N = true ->
  JsonText.continuation_bytes taken = true ->
  s ++ String c t = taken ++ rest ->
  exists s', s = taken ++ s' /\ rest = s' ++ String c t.
Proof.
  intros Hc. revert s. induction taken as [|x taken IH]; intros s Ht E.
  - exists s. split; [reflexivity | symmetry; exact E].
  - cbn [JsonText.continuation_bytes] in Ht.
    apply andb_true_iff in Ht as [Hx Ht].
    destruct s as [|y s].
    + cbn in E. inversion E; subst x.
      unfold JsonText.continuation in Hx. apply andb_true_iff in Hx as [Hx _].
      apply N.leb_le in Hx. apply N.ltb_lt in Hc. lia.
    + cbn in E. inversion E; subst y.
      destruct (IH s Ht H1) as [s' [Hs Hr]].
      exists s'. split; [cbn; now rewrite Hs | exact Hr].
Qed.

(** The escaped text is never shorter than the text, and as long as the
    text only when the text is plain.  The text is followed by an ASCII
    character, as the address is by the closing quote of the query. *)
Lemma escape_chars_excess (n : nat) :
  forall (s t : string) (c : ascii),
    String.length s <= n ->
    (N_of_ascii c <? 0x80)%N = true ->
    String.length s + String.length (JsonText.escape_chars (String c t))
    <= String.length (JsonText.escape_chars (s ++ String c t))
    /\ (String.length (JsonText.escape_chars (s ++ String c t))
        = String.length s + String.length (JsonText.escape_chars (String c t)) ->
        JsonText.plain s = true).
Proof.
  induction n as [|n IH]; intros s t c Hlen Hc.
  - destruct s; [|cbn in Hlen; lia]. split; [apply Nat.le_refl | reflexivity].
  - destruct s as [|a1 r]; [split; [apply Nat.le_refl | reflexivity]|].
    cbn [String.length] in Hlen.
    change (String a1 r ++ String c t) with (String a1 (r ++ String c t)).
    destruct (N_of_ascii a1 <? 0x80)%N eqn:Hlow.
    + destruct (IH r t c ltac:(lia) Hc) as [Hle Heq].
      set (tail := String.length (JsonText.escape_chars (String c t))) in *.
      assert (E : JsonText.escape_chars (String a1 (r ++ String c t))
                  = JsonText.escape_ascii_char (N_of_ascii a1)
                    ++ JsonText.escape_chars (r ++ String c t))
        by (cbn [JsonText.escape_chars]; now rewrite Hlow).
      rewrite E, length_append. cbn [String.length JsonText.plain].
      destruct (JsonText.plain_char (N_of_ascii a1)) eqn:Hp.
      * unfold JsonText.escape_ascii_char. rewrite Hp. cbn [String.length andb].
        split; [lia | intros E'; apply Heq; lia].
      * pose proof (escape_ascii_char_length _ Hp). split; lia.
    + destruct (escape_chars_high a1 (r ++ String c t) Hlow)
        as [cp [taken [rest [Esplit [Hshort [Htaken ->]]]]]].
      destruct (taken_before_ascii taken r rest t c Hc Htaken Esplit)
        as [s' [-> ->]].
      rewrite length_append in Hlen.
      destruct (IH s' t c ltac:(lia) Hc) as [Hle _].
      set (tail := String.length (JsonText.escape_chars (String c t))) in *.
      pose proof (escape_codepoint_length cp).
      cbn [String.length]. rewrite !length_append.
      split; lia.
Qed.

(** ** Running statements *)

Lemma advisory_run (ep : endpoint) (w : world) :
  advisory ep w
  = (Returned tt, {| stdout := stdout w ++ advisory_text; sent := sent w |}).
Proof.
  cbv [advisory bind print advisory_text]. cbn [stdout sent].
  f_equal. f_equal. repeat rewrite append_assoc. reflexivity.
Qed.

(** Unfold the statements of the script down to the replies of the
    endpoint, leaving the printed strings as they are written. *)
Ltac exec :=
  cbv [run boot mint_tokens main bind print print_str requests_post
       response_json ret raise result output requests
       balance_request info_request];
  cbn [stdout sent status_code text fst snd List.app].

Ltac exec_in H :=
  cbv [balance_request info_request] in H.

(** Split on what is still open in a run: a reply of the endpoint, a test
    of the status, a reading of the body. *)
Ltac branch :=
  match goal with
  | ep : endpoint |- context [?e ?earlier ?rq] =>
      constr_eq e ep;
      let E := fresh "Hreply" in destruct (ep earlier rq) as [?r|?f] eqn:E
  | |- context [(?x =? 200)%Z] =>
      let E := fresh "Hstatus" in destruct (x =? 200)%Z eqn:E
  | |- context [loads ?t] =>
      let E := fresh "Hloads" in destruct (loads t) as [?v|] eqn:E
  | |- context [str_of ?x] =>
      let E := fresh "Hstr" in destruct (str_of x) as [?s|] eqn:E
  end;
  cbn [stdout sent status_code text fst snd List.app option_map].

Ltac branches :=
  repeat branch;
  rewrite ?advisory_run;
  cbn [stdout sent status_code text fst snd List.app].


(** Follow a reply that is known. *)
Ltac follow Hreply :=
  rewrite Hreply;
  cbn [stdout sent status_code text fst snd List.app].

(** Both sides are the same pieces in the same order. *)
Ltac flat := repeat rewrite append_assoc; reflexivity.

Section Reporter.
  Context `{JsonLib}.

(** C10.  When the balance request raises a transport fault, the fault
    leaves [mint_tokens] uncaught: the only request issued is the balance
    request and the only line printed is the one that precedes it. *)
Theorem transport_fault_propagates (to_address amount : string) (ep : endpoint)
        (f : transport_fault) :
  ep [] (balance_request to_address) = Faults f ->
  run (mint_tokens to_address amount) ep
  = (Raised (RequestException f),
     {| stdout := "🔍 Checking current balance for " ++ to_address ++ "..." ++ nl;
        sent := [balance_request to_address] |}).
Proof.
  intros Hf. exec_in Hf. exec. rewrite Hf. f_equal. f_equal. flat.
Qed.

(** Whatever was printed before [mint_tokens] starts stays in front of
    what it prints; nothing else of the run depends on it. *)
Lemma mint_tokens_after_output (to_address amount before : string) (ep : endpoint) :
  mint_tokens to_address amount ep {| stdout := before; sent := [] |}
  = (result (run (mint_tokens to_address amount) ep),
     {| stdout := before ++ output (run (mint_tokens to_address amount) ep);
        sent := requests (run (mint_tokens to_address amount) ep) |}).
Proof.
  exec. branches. all: f_equal; f_equal; flat.
Qed.

(** [main] prints its banner, then is [mint_tokens] on the chosen
    arguments. *)
Lemma main_run (argv : list string) (ep : endpoint) :
  let to_address :=
    if (1 <? length argv)%nat then nth 1 argv EmptyString else default_address in
  let amount :=
    if (2 <? length argv)%nat then nth 2 argv EmptyString else default_amount in
  run (main argv) ep
  = (result (run (mint_tokens to_address amount) ep),
     {| stdout := banner to_address amount
                  ++ output (run (mint_tokens to_address amount) ep);
        sent := requests (run (mint_tokens to_address amount) ep) |}).
Proof.
  intros to_address amount.
  cbv [run boot main bind print].
  cbn [stdout sent fst snd].
  fold to_address amount.
  rewrite mint_tokens_after_output. f_equal. f_equal. unfold banner. flat.
Qed.


(** The first request of every run is the balance request. *)
Lemma first_request (to_address amount : string) (ep : endpoint) :
  nth_error (requests (run (mint_tokens to_address amount) ep)) 0
  = Some (balance_request to_address).
Proof.
  exec. branches. all: reflexivity.
Qed.

(** The body of the balance request around the address: the literal part
    of the query is escaped once and for all. *)
Lemma balance_body_shape (to_address : string) :
  req_body (balance_request to_address)
  = "{" ++ dq ++ "query" ++ dq ++ ": " ++ dq ++ "{ balance(owner: " ++ bs ++ dq
        ++ JsonText.escape_chars (to_address ++ dq ++ ") }") ++ dq ++ "}".
Proof.
  unfold balance_request, balance_query. cbn [req_body].
  unfold JsonText.dumps_str_dict, join.
  cbn [map fst snd String.concat]. unfold JsonText.encode_basestring_ascii.
  change (JsonText.escape_chars "query") with "query".
  change (JsonText.escape_chars ("{ balance(owner: " ++ dq ++ to_address ++ dq ++ ") }"))
    with ("{ balance(owner: " ++ bs ++ dq
            ++ JsonText.escape_chars (to_address ++ dq ++ ") }")).
  flat.
Qed.

(** C1, as the script has it.  The body of the balance request is the JSON
    text of the mapping from [query] to the GraphQL text, in which the
    address stands unescaped; it is the text of the specification, byte for
    byte, exactly when the address is made of the characters [' '..'~']
    other than the double quote and the backslash. *)
Theorem balance_request_body (to_address amount : string) (ep : endpoint) :
  nth_error (requests (run (mint_tokens to_address amount) ep)) 0
  = Some {| req_url := url;
            req_body :=
              "{" ++ dq ++ "query" ++ dq ++ ": "
                  ++ JsonText.encode_basestring_ascii
                       ("{ balance(owner: " ++ dq ++ to_address ++ dq ++ ") }")
                  ++ "}" |}
  /\ (JsonText.plain to_address = true <->
      req_body (balance_request to_address) = spec_balance_body to_address).
Proof.
  split; [rewrite first_request; reflexivity|].
  rewrite balance_body_shape. unfold spec_balance_body. split.
  - intros Hp. rewrite (escape_chars_plain _ _ Hp).
    change (JsonText.escape_chars (dq ++ ") }")) with (bs ++ dq ++ ") }").
    flat.
  - intros E. apply (f_equal String.length) in E.
    destruct (escape_chars_excess (String.length to_address) to_address ") }"
                (ascii_of_nat 34) (Nat.le_refl _) eq_refl) as [_ Hplain].
    apply Hplain.
    change (to_address ++ dq ++ ") }")
      with (to_address ++ String (ascii_of_nat 34) ") }") in E.
    rewrite !length_append in E. cbn in E |- *. lia.
Qed.


(** C5, as the script has it.  Whenever a second request is issued it is
    the same one, whatever the address and the amount: the POST to the
    application URL whose body is the text below, which ends with the two
    braces, the quote and the closing brace. *)
Theorem token_info_request_fixed (to_address amount : string) (ep : endpoint)
        (rq : request) :
  nth_error (requests (run (mint_tokens to_address amount) ep)) 1 = Some rq ->
  rq = {| req_url := url;
          req_body :=
            "{" ++ dq ++ "query" ++ dq ++ ": " ++ dq
                ++ "{ tokenInfo { name symbol decimals totalSupply } }"
                ++ dq ++ "}" |}.
Proof.
  exec. branches.
  all: cbn [nth_error]; intros E; try discriminate E.
  all: injection E as <-; reflexivity.
Qed.

(** C6.  A balance reply of status 500 and text [server error] is
    reported with both, and the token-info request is issued all the same. *)
Theorem balance_500_is_reported (to_address amount : string) (ep : endpoint) :
  ep [] (balance_request to_address) = answer 500 "server error" ->
  contains (output (run (mint_tokens to_address amount) ep))
    ("⚠️  Could not check balance: 500" ++ nl ++ "Response: server error" ++ nl)
  /\ nth_error (requests (run (mint_tokens to_address amount) ep)) 1
     = Some info_request.
Proof.
  intros Hb. exec_in Hb. exec. rewrite Hb. unfold answer.
  cbn [status_code text Z.eqb Pos.eqb fst snd List.app stdout sent].
  branches.
  all: split; [| reflexivity].
  all: eapply (contains_intro
                 ("🔍 Checking current balance for " ++ to_address ++ "..." ++ nl)).
  all: flat.
Qed.


(** C8.  The amount reaches no request: two runs that differ in the amount
    alone are the same run of [mint_tokens], and from the command line they
    issue the same requests. *)
Theorem amount_is_inert (to_address amount1 amount2 : string) (ep : endpoint) :
  run (mint_tokens to_address amount1) ep = run (mint_tokens to_address amount2) ep
  /\ forall (prog : string) (more : list string),
      requests (run (main (prog :: to_address :: amount1 :: more)) ep)
      = requests (run (main (prog :: to_address :: amount2 :: more)) ep).
Proof.
  split; [reflexivity|].
  intros prog more. rewrite !main_run. reflexivity.
Qed.


End Reporter.

(** ** Runs against simulated endpoints, with the JSON library of CPython *)

(** The library on a few documents. *)
Example loads_body_42 :
  loads body_42 = Some (PyJson.PyDict [("data", PyJson.PyDict [("balance", PyJson.PyStr "42.")])]).
Proof. reflexivity. Qed.

Example loads_rejects_prose : loads "not json" = None.
Proof. reflexivity. Qed.

Example loads_rejects_trailing_comma : loads "[1,]" = None.
Proof. reflexivity. Qed.

Example loads_keeps_last_duplicate :
  option_map PyJson.py_repr
    (loads ("{" ++ dq ++ "a" ++ dq ++ ": 1, " ++ dq ++ "b" ++ dq ++ ": [true, null], "
                ++ dq ++ "a" ++ dq ++ ": -3}"))
  = Some "{'a': -3, 'b': [True, None]}".
Proof. reflexivity. Qed.

Example str_of_string_and_list :
  option_map str_of (loads (dq ++ "it's" ++ dq)) = Some (Some "it's")
  /\ option_map str_of (loads ("[" ++ dq ++ "it's" ++ dq ++ ", 1.5]"))
     = Some (Some ("[" ++ dq ++ "it's" ++ dq ++ ", 1.5]")).
Proof. split; reflexivity. Qed.

(** An unpaired surrogate is read, has no bytes on standard output as a
    string of its own, and is written as its escape inside a list and by
    [json.dumps]. *)
Example unpaired_surrogate_rendered :
  option_map str_of (loads surrogate_body) = Some None
  /\ option_map str_of (loads ("[" ++ surrogate_body ++ "]"))
     = Some (Some ("['" ++ bs ++ "ud800']"))
  /\ option_map dumps_indent2 (loads surrogate_body) = Some surrogate_body.
Proof. repeat split. Qed.

Example dumps_indent2_body_42 :
  option_map dumps_indent2 (loads body_42)
  = Some ("{" ++ nl ++ "  " ++ dq ++ "data" ++ dq ++ ": {" ++ nl
              ++ "    " ++ dq ++ "balance" ++ dq ++ ": " ++ dq ++ "42." ++ dq ++ nl
              ++ "  }" ++ nl ++ "}").
Proof. reflexivity. Qed.

(** C1, as the specification words it, fails on an address that is a double
    quote: the body carries the quote of the address with a backslash of
    its own, inside a GraphQL text whose own quotes are escaped too. *)
Lemma balance_body_escapes_quote :
  nth_error (requests (run (mint_tokens dq "1000.") unreachable)) 0
  = Some {| req_url := url;
            req_body :=
              "{" ++ dq ++ "query" ++ dq ++ ": " ++ dq
                  ++ "{ balance(owner: " ++ bs ++ dq ++ bs ++ dq ++ bs ++ dq ++ ") }"
                  ++ dq ++ "}" |}
  /\ req_body (balance_request dq) <> spec_balance_body dq.
Proof.
  split; [reflexivity | vm_compute; discriminate].
Qed.

Lemma balance_request_body_witness :
  JsonText.plain default_address = true
  /\ req_body (balance_request default_address) = spec_balance_body default_address.
Proof.
  split; [reflexivity|].
  apply (proj2 (balance_request_body default_address default_amount unreachable)).
  reflexivity.
Defined.

(** C2, as the specification words it, fails: the text of the response is
    not in the output. *)
Lemma balance_json_is_not_printed_verbatim :
  ~ contains
      (output (run (mint_tokens default_address default_amount)
                   body_42_endpoint))
      body_42.
Proof.
  apply not_contains. vm_compute. reflexivity.
Qed.

(** C2, as the script has it.  A balance reply of status 200 with the body
    of the specification is printed as Python writes the dict read from
    it: the same keys and values between single quotes, a space after each
    colon. *)
Theorem balance_42_printed_as_dict (to_address amount : string) (ep : endpoint) :
  ep [] (balance_request to_address) = answer 200 body_42 ->
  contains (output (run (mint_tokens to_address amount) ep))
    ("✅ Current balance: {'data': {'balance': '42.'}}" ++ nl).
Proof.
  intros Hb. exec_in Hb. exec. follow Hb. unfold answer.
  cbn [status_code text Z.eqb Pos.eqb].
  rewrite loads_body_42.
  change (@str_of cpython_json
            (PyJson.PyDict [("data", PyJson.PyDict [("balance", PyJson.PyStr "42.")])]))
    with (Some "{'data': {'balance': '42.'}}").
  cbn [stdout sent fst snd List.app option_map].
  branches.
  all: eapply (contains_intro
                 ("🔍 Checking current balance for " ++ to_address ++ "..." ++ nl)).
  all: flat.
Qed.

Lemma balance_42_printed_as_dict_witness :
  always (answer 200 body_42) [] (balance_request default_address) = answer 200 body_42
  /\ contains
       (output (run (mint_tokens default_address default_amount)
                    body_42_endpoint))
       ("✅ Current balance: {'data': {'balance': '42.'}}" ++ nl).
Proof.
  split; [reflexivity|].
  apply (balance_42_printed_as_dict default_address default_amount
           body_42_endpoint).
  reflexivity.
Defined.

(** C3 fails on the script.  With a balance reply of status 500 and a
    token-info reply of status 503, the text of the balance reply is
    printed and the text of the token-info reply is not: its branch prints
    the status code alone. *)
Theorem token_info_failure_omits_text :
  contains (output (run (mint_tokens default_address default_amount) two_failures))
    ("⚠️  Could not check balance: 500" ++ nl ++ "Response: balance down" ++ nl)
  /\ contains (output (run (mint_tokens default_address default_amount) two_failures))
       ("⚠️  Could not get token info: 503" ++ nl ++ advisory_text)
  /\ ~ contains (output (run (mint_tokens default_address default_amount) two_failures))
         "token info down".
Proof.
  repeat split.
  - apply containsb_spec. vm_compute. reflexivity.
  - apply containsb_spec. vm_compute. reflexivity.
  - apply not_contains. vm_compute. reflexivity.
Qed.



(** C5, as the specification words it, fails: the body of the second
    request has no space between the last brace of the query and the
    closing quote. *)
Lemma token_info_body_has_no_trailing_space :
  nth_error (requests (run (mint_tokens default_address default_amount)
                           failing_500)) 1
  = Some info_request
  /\ req_body info_request <> spec_info_body.
Proof.
  split; [reflexivity | vm_compute; discriminate].
Qed.

Lemma token_info_request_fixed_witness :
  nth_error (requests (run (mint_tokens default_address default_amount)
                           failing_500)) 1
  = Some info_request
  /\ info_request
     = {| req_url := url;
          req_body :=
            "{" ++ dq ++ "query" ++ dq ++ ": " ++ dq
                ++ "{ tokenInfo { name symbol decimals totalSupply } }"
                ++ dq ++ "}" |}.
Proof.
  split; [reflexivity|].
  apply (token_info_request_fixed default_address default_amount
           failing_500).
  reflexivity.
Defined.

Lemma balance_500_is_reported_witness :
  failing_500 [] (balance_request default_address) = answer 500 "server error"
  /\ contains (output (run (mint_tokens default_address default_amount) failing_500))
       ("⚠️  Could not check balance: 500" ++ nl ++ "Response: server error" ++ nl)
  /\ nth_error (requests (run (mint_tokens default_address default_amount) failing_500)) 1
     = Some info_request.
Proof.
  split; [reflexivity|].
  apply (balance_500_is_reported default_address default_amount failing_500).
  reflexivity.
Defined.




Lemma transport_fault_propagates_witness :
  unreachable [] (balance_request default_address) = Faults ConnectionError
  /\ run (mint_tokens default_address default_amount) unreachable
     = (Raised (RequestException ConnectionError),
        {| stdout := "🔍 Checking current balance for " ++ default_address ++ "..." ++ nl;
           sent := [balance_request default_address] |}).
Proof.
  split; [reflexivity|].
  apply (transport_fault_propagates default_address default_amount unreachable
           ConnectionError).
  reflexivity.
Defined.

(** ** More of the script: the requests of a run, the other branches, the
    command line *)

Section Runs.
Context `{JsonLib}.

(** X1.  A run issues one request or two, never more: the balance request,
    then at most the token-info request, both to the application URL. *)
Theorem one_or_two_requests (to_address amount : string) (ep : endpoint) :
  (requests (run (mint_tokens to_address amount) ep) = [balance_request to_address]
   \/ requests (run (mint_tokens to_address amount) ep)
      = [balance_request to_address; info_request])
  /\ Forall (fun rq => req_url rq = url)
       (requests (run (mint_tokens to_address amount) ep)).
Proof.
  exec. branches.
  all: split; [auto | repeat constructor].
Qed.




(** X5.  A balance reply of status 200 that [response.json()] reads into
    an object whose [str] standard output can encode is printed, on the
    second line of the output, as the f-string renders that object. *)
Theorem balance_success_printed (to_address amount : string) (ep : endpoint)
        (r1 : Response) (v : pyobj) (shown : string) :
  ep [] (balance_request to_address) = Answers r1 ->
  status_code r1 = 200%Z ->
  loads (text r1) = Some v ->
  str_of v = Some shown ->
  (exists rest,
      output (run (mint_tokens to_address amount) ep)
      = "🔍 Checking current balance for " ++ to_address ++ "..." ++ nl
        ++ "✅ Current balance: " ++ shown ++ nl
        ++ nl ++ "🪙 Checking token info..." ++ nl
        ++ rest)
  /\ nth_error (requests (run (mint_tokens to_address amount) ep)) 1
     = Some info_request.
Proof.
  intros Hb Hs Hl Hv. exec_in Hb. exec. follow Hb. rewrite Hs, Hl.
  cbn [Z.eqb Pos.eqb stdout sent fst snd List.app]. rewrite Hv.
  cbn [stdout sent fst snd List.app option_map].
  branches.
  all: split; [eexists; flat | reflexivity].
Qed.



(** X11.  A balance reply of status 200 that [response.json()] reads into
    an object whose [str] standard output cannot encode makes [print]
    raise: the run ends in [UnicodeEncodeError] with the announcement as
    its only output and the balance request as its only request. *)
Theorem unencodable_balance_raises (to_address amount : string) (ep : endpoint)
        (r1 : Response) (v : pyobj) :
  ep [] (balance_request to_address) = Answers r1 ->
  status_code r1 = 200%Z ->
  loads (text r1) = Some v ->
  str_of v = None ->
  run (mint_tokens to_address amount) ep
  = (Raised UnicodeEncodeError,
     {| stdout := "🔍 Checking current balance for " ++ to_address ++ "..." ++ nl;
        sent := [balance_request to_address] |}).
Proof.
  intros Hb Hs Hl Hv. exec_in Hb. exec. follow Hb. rewrite Hs, Hl.
  cbn [Z.eqb Pos.eqb stdout sent fst snd List.app]. rewrite Hv.
  cbn [option_map]. f_equal. f_equal. flat.
Qed.

(** X8.  On the command line the first positional argument is the address
    and the second the amount; a missing amount is [1000.] and further
    arguments are ignored.  The run is the banner, which shows both,
    followed by the run of [mint_tokens] on them. *)
Theorem main_takes_positional_arguments (ep : endpoint) :
  (forall prog address : string,
      run (main [prog; address]) ep
      = (result (run (mint_tokens address "1000.") ep),
         {| stdout := banner address "1000."
                      ++ output (run (mint_tokens address "1000.") ep);
            sent := requests (run (mint_tokens address "1000.") ep) |}))
  /\ (forall (prog address amount : string) (more : list string),
        run (main (prog :: address :: amount :: more)) ep
        = (result (run (mint_tokens address amount) ep),
           {| stdout := banner address amount
                        ++ output (run (mint_tokens address amount) ep);
              sent := requests (run (mint_tokens address amount) ep) |})).
Proof.
  split; intros; rewrite main_run; reflexivity.
Qed.

End Runs.

(** Runs that meet the hypotheses of the theorems above. *)



Lemma balance_success_printed_witness :
  loads body_42
  = Some (PyJson.PyDict [("data", PyJson.PyDict [("balance", PyJson.PyStr "42.")])])
  /\ nth_error
       (requests (run (mint_tokens default_address default_amount) body_42_endpoint)) 1
     = Some info_request.
Proof.
  split; [reflexivity|].
  apply (@balance_success_printed cpython_json default_address default_amount body_42_endpoint
           {| status_code := 200; text := body_42 |}
           (PyJson.PyDict [("data", PyJson.PyDict [("balance", PyJson.PyStr "42.")])])
           "{'data': {'balance': '42.'}}"
           eq_refl eq_refl eq_refl eq_refl).
Defined.


Lemma unencodable_balance_raises_witness :
  loads surrogate_body
  = Some (PyJson.PyStr (String (ascii_of_nat 237)
                          (String (ascii_of_nat 160)
                             (String (ascii_of_nat 128) EmptyString))))
  /\ run (mint_tokens default_address default_amount) surrogate_then_failure
     = (Raised UnicodeEncodeError,
        {| stdout := "🔍 Checking current balance for " ++ default_address ++ "..." ++ nl;
           sent := [balance_request default_address] |}).
Proof.
  split; [reflexivity|].
  apply (@unencodable_balance_raises cpython_json default_address default_amount
           surrogate_then_failure
           {| status_code := 200; text := surrogate_body |}
           (PyJson.PyStr (String (ascii_of_nat 237)
                            (String (ascii_of_nat 160)
                               (String (ascii_of_nat 128) EmptyString))))
           eq_refl eq_refl eq_refl eq_refl).
Defined.

(** ** The bytes of the request bodies *)

Lemma printable_ascii_append (a b : string) :
  printable_ascii (a ++ b) = printable_ascii a && printable_ascii b.
Proof.
  induction a as [|x a IH]; [reflexivity|].
  cbn [String.append printable_ascii]. rewrite IH, !andb_assoc. reflexivity.
Qed.

Lemma hex_digit_printable (d : N) :
  (d < 16)%N ->
  (32 <=? N_of_ascii (JsonText.hex_digit d))%N
  && (N_of_ascii (JsonText.hex_digit d) <=? 126)%N = true.
Proof.
  intros Hd. unfold JsonText.hex_digit.
  destruct (d <? 10)%N eqn:E; rewrite N_ascii_embedding;
    try (apply N.ltb_lt in E); try (apply N.ltb_ge in E);
    try (apply andb_true_iff; split; apply N.leb_le); lia.
Qed.

Lemma hex4_printable (n : N) : printable_ascii (JsonText.hex4 n) = true.
Proof.
  unfold JsonText.hex4. cbn [printable_ascii].
  rewrite !hex_digit_printable by (apply N.mod_lt; discriminate).
  reflexivity.
Qed.

Lemma escape_codepoint_printable (n : N) :
  printable_ascii (JsonText.escape_codepoint n) = true.
Proof.
  unfold JsonText.escape_codepoint, JsonText.u_escape.
  destruct (n <? 0x10000)%N;
    rewrite ?printable_ascii_append, !hex4_printable; reflexivity.
Qed.

Lemma escape_ascii_char_printable (a : ascii) :
  printable_ascii (JsonText.escape_ascii_char (N_of_ascii a)) = true.
Proof.
  unfold JsonText.escape_ascii_char.
  destruct (JsonText.plain_char (N_of_ascii a)) eqn:Hp.
  - rewrite ascii_N_embedding. cbn [printable_ascii].
    unfold JsonText.plain_char in Hp.
    apply andb_true_iff in Hp as [Hp _]. apply andb_true_iff in Hp as [Hp _].
    rewrite Hp. reflexivity.
  - repeat match goal with
           | |- context [if ?b then _ else _] => destruct b
           end; try reflexivity.
    unfold JsonText.u_escape. rewrite !printable_ascii_append, hex4_printable.
    reflexivity.
Qed.

Lemma escape_chars_printable_upto (n : nat) :
  forall s : string,
    String.length s <= n -> printable_ascii (JsonText.escape_chars s) = true.
Proof.
  induction n as [|n IH]; intros s Hlen.
  - destruct s; [reflexivity | cbn in Hlen; lia].
  - destruct s as [|a1 r1]; [reflexivity|]. cbn [String.length] in Hlen.
    destruct (N_of_ascii a1 <? 0x80)%N eqn:Hlow.
    + cbn [JsonText.escape_chars]. rewrite Hlow, printable_ascii_append,
        escape_ascii_char_printable, IH by lia. reflexivity.
    + destruct (escape_chars_high a1 r1 Hlow)
        as [cp [taken [rest [-> [_ [_ ->]]]]]].
      rewrite length_append in Hlen.
      rewrite printable_ascii_append, escape_codepoint_printable, IH by lia.
      reflexivity.
Qed.

Lemma escape_chars_printable (s : string) :
  printable_ascii (JsonText.escape_chars s) = true.
Proof.
  apply (escape_chars_printable_upto (String.length s)), Nat.le_refl.
Qed.

Section Bodies.
Context `{JsonLib}.

(** X9.  Whatever the address holds (quotes, line breaks, control
    characters, bytes above 0x7F), every request body of a run is made of
    the characters [' '..'~'] alone. *)
Theorem request_bodies_are_printable_ascii (to_address amount : string)
        (ep : endpoint) :
  Forall (fun rq => printable_ascii (req_body rq) = true)
    (requests (run (mint_tokens to_address amount) ep)).
Proof.
  assert (Hb : printable_ascii (req_body (balance_request to_address)) = true).
  { rewrite balance_body_shape.
    rewrite !printable_ascii_append, escape_chars_printable. reflexivity. }
  exec. branches.
  all: repeat constructor; exact Hb.
Qed.

End Bodies.

(** ** Reading the balance request back *)

Lemma lex_silent_step (st st' : PyJson.lex_state) (a : ascii) (r : string) :
  PyJson.lex_step st a = Some (st', []) ->
  PyJson.lex st (String a r) = PyJson.lex st' r.
Proof.
  intros E. cbn [PyJson.lex]. rewrite E.
  destruct (PyJson.lex st' r); reflexivity.
Qed.

Lemma lex_escaped_char (a : ascii) :
  (N_of_ascii a <? 0x80)%N = true ->
  forall (out : list ascii) (rest : string),
    PyJson.lex (PyJson.LString PyJson.SPlain None out)
      (JsonText.escape_ascii_char (N_of_ascii a) ++ rest)
    = PyJson.lex (PyJson.LString PyJson.SPlain None (a :: out)) rest.
Proof.
  destruct a as [[] [] [] [] [] [] [] []]; intros Hlow; try discriminate Hlow.
  all: intros out rest.
  all: match goal with
       | |- PyJson.lex _ (?e ++ _) = _ =>
           let e' := eval vm_compute in e in change e with e'
       end.
  all: cbn [String.append].
  all: repeat (erewrite lex_silent_step by reflexivity).
  all: reflexivity.
Qed.

Lemma lex_escaped_ascii (s : string) :
  ascii_only s = true ->
  forall (out : list ascii) (tail rest : string),
    PyJson.lex (PyJson.LString PyJson.SPlain None out)
      (JsonText.escape_chars (s ++ tail) ++ rest)
    = PyJson.lex
        (PyJson.LString PyJson.SPlain None (rev (list_ascii_of_string s) ++ out))
        (JsonText.escape_chars tail ++ rest).
Proof.
  induction s as [|a s IH]; intros Hs out tail rest; [reflexivity|].
  cbn [ascii_only] in Hs. apply andb_true_iff in Hs as [Ha Hs].
  change (String a s ++ tail) with (String a (s ++ tail)).
  cbn [JsonText.escape_chars]. rewrite Ha, append_assoc.
  rewrite (lex_escaped_char a Ha), (IH Hs).
  cbn [list_ascii_of_string rev]. rewrite <- app_assoc. reflexivity.
Qed.

Lemma string_of_list_ascii_app (l1 l2 : list ascii) :
  string_of_list_ascii (l1 ++ l2)
  = string_of_list_ascii l1 ++ string_of_list_ascii l2.
Proof.
  induction l1 as [|x l1 IH]; [reflexivity|].
  cbn [List.app string_of_list_ascii String.append]. now rewrite IH.
Qed.

Lemma lex_step_eq (st st' : PyJson.lex_state) (ts : list PyJson.token)
      (a : ascii) (r : string) :
  PyJson.lex_step st a = Some (st', ts) ->
  PyJson.lex st (String a r) = option_map (app ts) (PyJson.lex st' r).
Proof.
  intros E. cbn [PyJson.lex]. rewrite E. reflexivity.
Qed.

(** X10.  The balance request reads back: for every address made of
    characters below U+0080, quotes, backslashes and control characters
    included, [json.loads] of the body sent is the mapping from [query] to
    the GraphQL text with the address in it as it was given. *)
Theorem balance_body_reads_back (to_address : string) :
  ascii_only to_address = true ->
  PyJson.json_loads (req_body (balance_request to_address))
  = Some (PyJson.PyDict
            [("query",
              PyJson.PyStr ("{ balance(owner: " ++ dq ++ to_address ++ dq ++ ") }"))]).
Proof.
  intros Ha. rewrite balance_body_shape. unfold PyJson.json_loads.
  unfold dq, bs. cbn [String.append].
  repeat (erewrite lex_step_eq by reflexivity).
  rewrite (lex_escaped_ascii _ Ha).
  match goal with
  | |- context [JsonText.escape_chars ?t] =>
      let e := eval vm_compute in (JsonText.escape_chars t) in
      change (JsonText.escape_chars t) with e
  end.
  cbn [String.append].
  repeat (erewrite lex_step_eq by reflexivity).
  cbn [PyJson.lex PyJson.lex_finish option_map List.app].
  cbn -[rev list_ascii_of_string string_of_list_ascii String.append].
  do 5 f_equal.
  cbn [rev]. rewrite rev_app_distr, rev_involutive.
  cbn [rev List.app string_of_list_ascii].
  rewrite !string_of_list_ascii_app, string_of_list_ascii_of_string.
  cbn [string_of_list_ascii]. unfold dq.
  repeat rewrite append_assoc. reflexivity.
Qed.

Lemma balance_body_reads_back_witness :
  ascii_only (dq ++ bs ++ nl) = true
  /\ PyJson.json_loads (req_body (balance_request (dq ++ bs ++ nl)))
     = Some (PyJson.PyDict
               [("query",
                 PyJson.PyStr ("{ balance(owner: " ++ dq ++ (dq ++ bs ++ nl) ++ dq ++ ") }"))]).
Proof.
  split; [reflexivity|].
  apply (balance_body_reads_back (dq ++ bs ++ nl)). reflexivity.
Defined.
